(** * Template-library modal layout (library-layout.js)

    A shallow embedding of
    [assets/dev/js/editor/components/template-library/views/library-layout.js]:
    the action-button resolution of a template row and the screen
    transitions of the template-library modal over its four regions,
    followed by the stability wait [isUiStable] of
    [tests/playwright/pages/editor-page.ts]. *)

From stdpp Require Import gmap strings list.
From Stdlib Require Import ZArith Lia.

Open Scope string_scope.
Open Scope Z_scope.
Open Scope list_scope.

(** ** JavaScript values that reach this file *)

Inductive JsVal : Type :=
| JUndefined
| JNull
| JBool (b : bool)
| JNum (z : Z)
| JStr (s : string).

(** A plain options object [{ key: value, ... }]. *)
Abbreviation JsObject := (gmap string JsVal).

(** A Backbone model: [model.get( name )] reads an attribute and yields
    [undefined] when the attribute is absent. *)
Record Model : Type := { attributes : JsObject }.

Definition Model_get (m : Model) (name : string) : JsVal :=
  default JUndefined (attributes m !! name).

(** The template metadata handed to [getTemplateActionButton].  The access
    level is the tier number supplied by the template data source; the other
    fields of the row are kept for the filters, which receive the whole
    record. *)
Record TemplateData : Type := {
  accessLevel : Z;
  otherFields : JsObject
}.

(** The payload given to the renderer: [{ buttonText: ... }]. *)
Record RenderData : Type := { buttonText : JsVal }.

(** ** The filter registry ([elementor.hooks]) *)

(** A filter callback for the action-button hook: it receives the current
    identifier and the template metadata and returns an identifier. *)
Definition Filter : Type := string -> TemplateData -> string.

Abbreviation Hooks := (gmap string (list Filter)).

(** Modelled from the spec: [elementor.hooks.applyFilters], whose code is not
    in this file's module.  A named, ordered chain of filters is applied to the
    value, each filter seeing the value returned by the previous one together
    with the context argument; a name with no registered filter returns the
    value as it is. *)
Definition applyFilters (hooks : Hooks) (name : string) (value : string)
    (templateData : TemplateData) : string :=
  fold_left (fun v (f : Filter) => f v templateData)
            (default [] (hooks !! name)) value.

Definition action_button_hook : string :=
  "elementor/editor/template-library/template/action-button".

(** ** Views and regions *)

Inductive RegionName : Type := LogoArea | Tools | MenuArea | ModalContent.

(** What [$e.run( command, args )] is asked to run. *)
Record CommandCall : Type := {
  command : string;
  commandArgs : list (string * JsVal)
}.

Record LogoOptions : Type := {
  title : string;
  click : CommandCall
}.

(** The view classes this layout instantiates, each with the options its
    constructor is given. *)
Inductive ViewKind : Type :=
| TemplateLibraryHeaderActionsView
| TemplateLibraryHeaderMenuView
| TemplateLibraryHeaderPreviewView (model : Model)
| TemplateLibraryHeaderBackView
| TemplateLibraryCollectionView (collection : list Model)
| TemplateLibrarySaveTemplateView (model : Model)
| TemplateLibraryImportView
| TemplateLibraryConnectView (args : JsObject)
| TemplateLibraryPreviewView (url : JsVal)
| LogoView (options : LogoOptions).

(** A view instance: [new K( options )] yields an object of its own, told
    apart from every other instance by its [cid]. *)
Record View : Type := { cid : nat; kind : ViewKind }.

Module Region.

(** Modelled from the spec: the region class ([show], [reset]) comes from
    the view framework and is not part of this file's module.  A region
    holds zero or one occupant. *)
Record t : Type := { currentView : option View }.

Definition empty : t := {| currentView := None |}.

(** The occupant as a list: the views a [show] or [reset] releases. *)
Definition occupants (r : t) : list View :=
  match currentView r with
  | Some old => [old]
  | None => []
  end.

(** Modelled from the spec: [show(view)] destroys the current occupant if
    present and installs [view]; it has no failure path.  The second
    component lists the views released by the call. *)
Definition show (view : View) (r : t) : t * list View :=
  ({| currentView := Some view |}, occupants r).

(** Modelled from the spec: [reset()] destroys the current occupant if
    present and leaves the region empty. *)
Definition reset (r : t) : t * list View :=
  (empty, occupants r).

(** A sequence of [show] calls, in order, with the releases they cause. *)
Fixpoint show_all (views : list View) (r : t) : t * list View :=
  match views with
  | [] => (r, [])
  | v :: rest =>
      let '(r1, released1) := show v r in
      let '(r2, released2) := show_all rest r1 in
      (r2, released1 ++ released2)
  end.

End Region.

(** ** The modal and its transitions *)

(** The modal: the three header regions reached through [getHeaderView()],
    the content region [modalContent], and the counter from which new view
    instances draw their [cid]. *)
Record Modal : Type := {
  logoArea : Region.t;
  tools : Region.t;
  menuArea : Region.t;
  modalContent : Region.t;
  next_cid : nat
}.

Definition region_of (name : RegionName) (m : Modal) : Region.t :=
  match name with
  | LogoArea => logoArea m
  | Tools => tools m
  | MenuArea => menuArea m
  | ModalContent => modalContent m
  end.

Definition set_region (name : RegionName) (r : Region.t) (m : Modal) : Modal :=
  match name with
  | LogoArea =>
      {| logoArea := r; tools := tools m; menuArea := menuArea m;
         modalContent := modalContent m; next_cid := next_cid m |}
  | Tools =>
      {| logoArea := logoArea m; tools := r; menuArea := menuArea m;
         modalContent := modalContent m; next_cid := next_cid m |}
  | MenuArea =>
      {| logoArea := logoArea m; tools := tools m; menuArea := r;
         modalContent := modalContent m; next_cid := next_cid m |}
  | ModalContent =>
      {| logoArea := logoArea m; tools := tools m; menuArea := menuArea m;
         modalContent := r; next_cid := next_cid m |}
  end.

(** What a transition does, in the order it does it: the region calls it
    issues and the views those calls release. *)
Inductive Event : Type :=
| EvShow (name : RegionName) (view : View)
| EvReset (name : RegionName)
| EvDestroy (view : View).

(** Transitions run to completion on the modal and leave a trace of events:
    a state monad with a log. *)
Definition M (A : Type) : Type := Modal -> A * Modal * list Event.

#[global] Instance M_ret : MRet M := fun A (a : A) (m : Modal) => (a, m, []).

#[global] Instance M_bind : MBind M := fun A B (k : A -> M B) (c : M A) (m : Modal) =>
  let '(a, m1, evs1) := c m in
  let '(b, m2, evs2) := k a m1 in
  (b, m2, evs1 ++ evs2).

(** The modal a transition leaves, and the events it emits. *)
Definition exec {A} (c : M A) (m : Modal) : Modal := snd (fst (c m)).
Definition emitted {A} (c : M A) (m : Modal) : list Event := snd (c m).

(** [new K( options )]: a fresh instance. *)
Definition new (k : ViewKind) : M View :=
  fun m =>
    ({| cid := next_cid m; kind := k |},
     {| logoArea := logoArea m; tools := tools m; menuArea := menuArea m;
        modalContent := modalContent m; next_cid := S (next_cid m) |},
     []).

(** [region.show( view )] on the named region of the modal. *)
Definition region_show (name : RegionName) (view : View) : M unit :=
  fun m =>
    let '(r, released) := Region.show view (region_of name m) in
    (tt, set_region name r m, EvShow name view :: map EvDestroy released).

(** [region.reset()] on the named region of the modal. *)
Definition region_reset (name : RegionName) : M unit :=
  fun m =>
    let '(r, released) := Region.reset (region_of name m) in
    (tt, set_region name r m, EvReset name :: map EvDestroy released).

(** A property read [object[ key ]]: [undefined] when the key is absent. *)
Definition js_index (object : gmap Z JsVal) (key : Z) : JsVal :=
  default JUndefined (object !! key).

(** ** The stability wait of the editor page object
    ([tests/playwright/pages/editor-page.ts]) *)

Module EditorPage.

(** The postfix increment [x++]: the value of the expression, and the
    variable after it. *)
Definition post_increment (x : Z) : Z * Z := (x, x + 1).

(** The [do ... while] loop of [isUiStable].  [differs k] tells whether the
    comparator finds a difference between the two screenshots of round [k]
    (rounds count from 0), which is the loop condition
    [null !== comparator( beforeImage, afterImage )].  The result is the
    number of rounds of screenshots taken when the call returns; [None]
    when the loop is still running after [fuel] rounds. *)
Fixpoint isUiStable_loop (fuel : nat) (differs : nat -> bool)
    (retries retry : Z) (round : nat) : option nat :=
  match fuel with
  | O => None
  | S fuel' =>
      if bool_decide (retry = retries) then Some round
      else
        (* retry = retry++ : the incremented variable is overwritten with
           the value of the expression *)
        let '(value, _) := post_increment retry in
        let retry := value in
        if differs round
        then isUiStable_loop fuel' differs retries retry (S round)
        else Some (S round)
  end.

Definition isUiStable (fuel : nat) (differs : nat -> bool) (retries : Z)
    : option nat :=
  isUiStable_loop fuel differs retries 0 0.

End EditorPage.

Section LibraryLayout.

(** The collaborators this file calls and does not define: the translation
    function [__( text, domain )], the template cache and the renderer. *)
Variable __ : string -> string -> string.
Variables Template Markup : Type.
Variable TemplateCache_get : string -> Template.
Variable Renderer_render : Template -> RenderData -> Markup.

Definition getModalOptions : JsObject :=
  {[ "id" := JStr "elementor-template-library-modal" ]}.

Definition getLogoOptions : LogoOptions :=
  {| title := __ "Library" "elementor";
     click := {| command := "library/open";
                 commandArgs := [("toDefault", JBool true)] |} |}.

(** The identifier computed from the access level, before the filters see
    it (the first statement of [getTemplateActionButton]). *)
Definition computedViewId (templateData : TemplateData) : string :=
  String.append "#tmpl-elementor-template-library-"
    (if bool_decide (accessLevel templateData ≠ 0)
     then "get-pro-button" else "insert-button").

Definition buttonTextsFromAccessLevel : gmap Z JsVal :=
  {[ 0 := JNull;
     1 := JStr (__ "Go Pro" "elementor");
     2 := JStr (__ "Go Expert" "elementor") ]}.

Definition getTemplateActionButton (hooks : Hooks) (templateData : TemplateData)
    : Markup :=
  let viewId := computedViewId templateData in
  let viewId := applyFilters hooks action_button_hook viewId templateData in
  let template := TemplateCache_get viewId in
  Renderer_render template
    {| buttonText :=
         js_index buttonTextsFromAccessLevel (accessLevel templateData) |}.

(** Modelled from the spec: [showLogo], inherited from the modal layout base
    class and absent from this file: the logo region is given a logo view
    built from [getLogoOptions()].  [getHeaderView()], inherited too, yields
    the header whose regions are [tools], [menuArea] and [logoArea]; they are
    fields of [Modal] here. *)
Definition showLogo : M unit :=
  view ← new (LogoView getLogoOptions);
  region_show LogoArea view.

Definition setHeaderDefaultParts : M unit :=
  actions ← new TemplateLibraryHeaderActionsView;
  region_show Tools actions;;
  menu ← new TemplateLibraryHeaderMenuView;
  region_show MenuArea menu;;
  showLogo.

Definition showTemplatesView (templatesCollection : list Model) : M unit :=
  view ← new (TemplateLibraryCollectionView templatesCollection);
  region_show ModalContent view.

Definition showImportView : M unit :=
  region_reset MenuArea;;
  view ← new TemplateLibraryImportView;
  region_show ModalContent view;;
  back ← new TemplateLibraryHeaderBackView;
  region_show LogoArea back.

Definition showConnectView (args : JsObject) : M unit :=
  region_reset MenuArea;;
  view ← new (TemplateLibraryConnectView args);
  region_show ModalContent view.

Definition showSaveTemplateView (elementModel : Model) : M unit :=
  region_reset MenuArea;;
  view ← new (TemplateLibrarySaveTemplateView elementModel);
  region_show ModalContent view.

Definition showPreviewView (templateModel : Model) : M unit :=
  view ← new (TemplateLibraryPreviewView (Model_get templateModel "url"));
  region_show ModalContent view;;
  region_reset MenuArea;;
  preview ← new (TemplateLibraryHeaderPreviewView templateModel);
  region_show Tools preview;;
  back ← new TemplateLibraryHeaderBackView;
  region_show LogoArea back.

(** ** Sequences of calls *)

(** A call of one of the layout's transitions, with its argument. *)
Inductive Command : Type :=
| SetHeaderDefaultParts
| ShowTemplatesView (templatesCollection : list Model)
| ShowImportView
| ShowConnectView (args : JsObject)
| ShowSaveTemplateView (elementModel : Model)
| ShowPreviewView (templateModel : Model).

Definition call (cmd : Command) : M unit :=
  match cmd with
  | SetHeaderDefaultParts => setHeaderDefaultParts
  | ShowTemplatesView templatesCollection => showTemplatesView templatesCollection
  | ShowImportView => showImportView
  | ShowConnectView args => showConnectView args
  | ShowSaveTemplateView elementModel => showSaveTemplateView elementModel
  | ShowPreviewView templateModel => showPreviewView templateModel
  end.

(** The calls of a caller, one after the other. *)
Fixpoint call_all (cmds : list Command) : M unit :=
  match cmds with
  | [] => mret tt
  | cmd :: rest => call cmd;; call_all rest
  end.

(** ** Observations on modals and traces *)

(** The class and options of a region's occupant, the instance left aside. *)
Definition occupant_kind (r : Region.t) : option ViewKind :=
  kind <$> Region.currentView r.

(** Two modals show the same screen when each region holds a view of the
    same class built from the same options (or both are empty); instances
    and the [cid] counter are left aside, as every transition creates its
    views anew. *)
Definition same_screen (m1 m2 : Modal) : Prop :=
  occupant_kind (logoArea m1) = occupant_kind (logoArea m2) /\
  occupant_kind (tools m1) = occupant_kind (tools m2) /\
  occupant_kind (menuArea m1) = occupant_kind (menuArea m2) /\
  occupant_kind (modalContent m1) = occupant_kind (modalContent m2).

(** Scans a trace for the reset of the menu region: [true] when it is found
    before any [show] on a region selected by [guarded], [false] when such
    a [show] comes first or the menu is never reset. *)
Fixpoint reset_precedes_shows (guarded : RegionName -> bool)
    (evs : list Event) : bool :=
  match evs with
  | [] => false
  | EvReset MenuArea :: _ => true
  | EvShow name _ :: rest =>
      if guarded name then false else reset_precedes_shows guarded rest
  | _ :: rest => reset_precedes_shows guarded rest
  end.

(** The menu reset comes before every [show]. *)
Definition menu_reset_first (evs : list Event) : bool :=
  reset_precedes_shows (fun _ => true) evs.

Definition is_header_region (name : RegionName) : bool :=
  match name with
  | ModalContent => false
  | _ => true
  end.

(** The menu reset comes before every [show] on a header region. *)
Definition menu_reset_before_header (evs : list Event) : bool :=
  reset_precedes_shows is_header_region evs.

(** The views the modal holds, region by region. *)
Definition all_occupants (m : Modal) : list View :=
  Region.occupants (logoArea m) ++ Region.occupants (tools m) ++
  Region.occupants (menuArea m) ++ Region.occupants (modalContent m).

(** The views a trace puts into regions, and the views it releases. *)
Fixpoint shown (evs : list Event) : list View :=
  match evs with
  | [] => []
  | EvShow _ view :: rest => view :: shown rest
  | _ :: rest => shown rest
  end.

Fixpoint destroyed (evs : list Event) : list View :=
  match evs with
  | [] => []
  | EvDestroy view :: rest => view :: destroyed rest
  | _ :: rest => destroyed rest
  end.

(** No instance sits in two regions, and every instance held was drawn
    from the counter. *)
Definition well_formed (m : Modal) : Prop :=
  NoDup (cid <$> all_occupants m) /\
  Forall (fun c => (c < next_cid m)%nat) (cid <$> all_occupants m).

(** The view classes the transitions put into each region. *)
Definition allowed (name : RegionName) (k : ViewKind) : bool :=
  match name, k with
  | LogoArea, LogoView _ => true
  | LogoArea, TemplateLibraryHeaderBackView => true
  | Tools, TemplateLibraryHeaderActionsView => true
  | Tools, TemplateLibraryHeaderPreviewView _ => true
  | MenuArea, TemplateLibraryHeaderMenuView => true
  | ModalContent, TemplateLibraryCollectionView _ => true
  | ModalContent, TemplateLibrarySaveTemplateView _ => true
  | ModalContent, TemplateLibraryImportView => true
  | ModalContent, TemplateLibraryConnectView _ => true
  | ModalContent, TemplateLibraryPreviewView _ => true
  | _, _ => false
  end.

Definition holds_allowed (name : RegionName) (m : Modal) : bool :=
  match Region.currentView (region_of name m) with
  | Some view => allowed name (kind view)
  | None => true
  end.

Definition region_typed (m : Modal) : bool :=
  holds_allowed LogoArea m && holds_allowed Tools m &&
  holds_allowed MenuArea m && holds_allowed ModalContent m.

(** An event the transitions may emit: a [show] of a view class the region
    takes, a [reset] of the menu region, or a release. *)
Definition event_allowed (ev : Event) : bool :=
  match ev with
  | EvShow name view => allowed name (kind view)
  | EvReset MenuArea => true
  | EvReset _ => false
  | EvDestroy _ => true
  end.

(** The regions a call writes to. *)
Definition touches (cmd : Command) (name : RegionName) : bool :=
  match cmd, name with
  | SetHeaderDefaultParts, ModalContent => false
  | SetHeaderDefaultParts, _ => true
  | ShowTemplatesView _, ModalContent => true
  | ShowTemplatesView _, _ => false
  | ShowImportView, Tools => false
  | ShowImportView, _ => true
  | ShowConnectView _, (MenuArea | ModalContent) => true
  | ShowConnectView _, _ => false
  | ShowSaveTemplateView _, (MenuArea | ModalContent) => true
  | ShowSaveTemplateView _, _ => false
  | ShowPreviewView _, _ => true
  end.

Definition is_SetHeaderDefaultParts (cmd : Command) : bool :=
  match cmd with
  | SetHeaderDefaultParts => true
  | _ => false
  end.

(** ** Concrete inputs *)

(** A modal whose regions are all empty. *)
Definition empty_modal : Modal :=
  {| logoArea := Region.empty; tools := Region.empty;
     menuArea := Region.empty; modalContent := Region.empty;
     next_cid := 0 |}.

(** A template model with a preview address. *)
Definition sample_template : Model :=
  {| attributes := {[ "url" := JStr "https://library.test/preview/7" ]} |}.

(** The translation function when no translation is loaded: the text
    itself. *)
Definition untranslated (text domain : string) : string := text.

(** A filter that replaces one identifier it knows and returns every other
    one as it got it. *)
Definition sample_filter : Filter :=
  fun viewId _ =>
    if String.eqb viewId "#tmpl-elementor-template-library-custom-button"
    then "#tmpl-other" else viewId.

(** A filter that replaces the identifier of every template of access
    level 1. *)
Definition override_filter : Filter :=
  fun viewId templateData =>
    if bool_decide (accessLevel templateData = 1)
    then "#tmpl-custom-button" else viewId.

(** A template row of a given access level with no other field. *)
Definition template_row (level : Z) : TemplateData :=
  {| accessLevel := level; otherFields := ∅ |}.

Definition sample_hooks : Hooks :=
  {[ action_button_hook := [sample_filter] ]}.

Definition override_hooks : Hooks :=
  {[ action_button_hook := [sample_filter; override_filter] ]}.

(** A template cache whose templates are their identifiers, and a renderer
    that returns the template together with the button text it was given. *)
Definition named_template (viewId : string) : string := viewId.

Definition render_pair (template : string) (data : RenderData)
    : string * JsVal :=
  (template, buttonText data).

(** A session: browse, preview a template, open the connect screen, go
    back to the default header, save a template. *)
Definition sample_session : list Command :=
  [ SetHeaderDefaultParts; ShowTemplatesView [sample_template];
    ShowPreviewView sample_template; ShowConnectView ∅;
    SetHeaderDefaultParts; ShowSaveTemplateView sample_template ].

(** Calls that stay away from the tools region. *)
Definition sample_content_calls : list Command :=
  [ ShowImportView; ShowConnectView ∅; ShowTemplatesView [] ].

(** Screenshots that differ for the first five rounds and agree from the
    sixth on. *)
Definition settles_after_five (round : nat) : bool := (round <? 5)%nat.

(** Screenshots that differ in every round. *)
Definition never_settles (round : nat) : bool := true.

(** ** Properties of the transitions *)

Ltac open_modal m :=
  destruct m as [[logo] [tool] [menu] [content] n].

(** C1: whatever the modal held before, the menu region is empty once
    [showImportView], [showConnectView], [showSaveTemplateView] or
    [showPreviewView] has returned. *)
Theorem menu_empty_after_leaving_default
    (m : Modal) (args : JsObject) (elementModel templateModel : Model) :
  menuArea (exec showImportView m) = Region.empty /\
  menuArea (exec (showConnectView args) m) = Region.empty /\
  menuArea (exec (showSaveTemplateView elementModel) m) = Region.empty /\
  menuArea (exec (showPreviewView templateModel) m) = Region.empty.
Proof.
  open_modal m. repeat split.
Qed.

(** C5: whatever the modal held before, [setHeaderDefaultParts] leaves the
    tools, menu and logo regions with exactly one occupant each: the
    header-actions view, the header-menu view and the logo view, the three
    instances it has just created. *)
Theorem setHeaderDefaultParts_populates_header (m : Modal) :
  let m' := exec setHeaderDefaultParts m in
  Region.occupants (tools m') =
    [ {| cid := next_cid m; kind := TemplateLibraryHeaderActionsView |} ] /\
  Region.occupants (menuArea m') =
    [ {| cid := S (next_cid m); kind := TemplateLibraryHeaderMenuView |} ] /\
  Region.occupants (logoArea m') =
    [ {| cid := S (S (next_cid m)); kind := LogoView getLogoOptions |} ].
Proof.
  open_modal m. repeat split.
Qed.

(** The frame of [setHeaderDefaultParts]: the content region is not
    touched. *)
Lemma setHeaderDefaultParts_keeps_content (m : Modal) :
  modalContent (exec setHeaderDefaultParts m) = modalContent m.
Proof.
  open_modal m. reflexivity.
Qed.

(** C6: after [showSaveTemplateView( modelX )] the menu region is empty and
    the content region holds a save-template view bound to [modelX]; a
    following [setHeaderDefaultParts()] puts the default views back in the
    menu, tools and logo regions and leaves the content region as it was,
    with the very same save-template view.  This holds from every modal
    state, the default screen included. *)
Theorem save_template_then_default_header (m : Modal) (modelX : Model) :
  let m1 := exec (showSaveTemplateView modelX) m in
  let m2 := exec setHeaderDefaultParts m1 in
  menuArea m1 = Region.empty /\
  Region.currentView (modalContent m1) =
    Some {| cid := next_cid m;
            kind := TemplateLibrarySaveTemplateView modelX |} /\
  occupant_kind (menuArea m2) = Some TemplateLibraryHeaderMenuView /\
  occupant_kind (tools m2) = Some TemplateLibraryHeaderActionsView /\
  occupant_kind (logoArea m2) = Some (LogoView getLogoOptions) /\
  modalContent m2 = modalContent m1.
Proof.
  open_modal m. repeat split.
Qed.

(** Every transition writes the regions it touches with views that depend
    on its arguments only, so running it again shows the same screen. *)
Ltac same_screen_by_run m :=
  open_modal m; unfold same_screen, occupant_kind; repeat split.

(** C4: each controller operation, called twice in a row with the same
    arguments, leaves the modal showing the same screen as one call does:
    every region holds a view of the same class bound to the same options
    (the instances differ, each call creating its own). *)
Theorem transitions_idempotent
    (m : Modal) (templatesCollection : list Model) (args : JsObject)
    (elementModel templateModel : Model) :
  same_screen (exec setHeaderDefaultParts (exec setHeaderDefaultParts m))
              (exec setHeaderDefaultParts m) /\
  same_screen (exec (showTemplatesView templatesCollection)
                 (exec (showTemplatesView templatesCollection) m))
              (exec (showTemplatesView templatesCollection) m) /\
  same_screen (exec showImportView (exec showImportView m))
              (exec showImportView m) /\
  same_screen (exec (showConnectView args) (exec (showConnectView args) m))
              (exec (showConnectView args) m) /\
  same_screen (exec (showSaveTemplateView elementModel)
                 (exec (showSaveTemplateView elementModel) m))
              (exec (showSaveTemplateView elementModel) m) /\
  same_screen (exec (showPreviewView templateModel)
                 (exec (showPreviewView templateModel) m))
              (exec (showPreviewView templateModel) m).
Proof.
  repeat apply conj; same_screen_by_run m.
Qed.

(** The traces of the four transitions that leave the default screen. *)
Lemma showImportView_trace (m : Modal) :
  emitted showImportView m =
    EvReset MenuArea :: map EvDestroy (Region.occupants (menuArea m)) ++
    EvShow ModalContent {| cid := next_cid m; kind := TemplateLibraryImportView |}
      :: map EvDestroy (Region.occupants (modalContent m)) ++
    EvShow LogoArea {| cid := S (next_cid m); kind := TemplateLibraryHeaderBackView |}
      :: map EvDestroy (Region.occupants (logoArea m)).
Proof.
  open_modal m. unfold emitted. cbn. rewrite ?app_nil_r. reflexivity.
Qed.

Lemma showConnectView_trace (m : Modal) (args : JsObject) :
  emitted (showConnectView args) m =
    EvReset MenuArea :: map EvDestroy (Region.occupants (menuArea m)) ++
    EvShow ModalContent
      {| cid := next_cid m; kind := TemplateLibraryConnectView args |}
      :: map EvDestroy (Region.occupants (modalContent m)).
Proof.
  open_modal m. unfold emitted. cbn. rewrite ?app_nil_r. reflexivity.
Qed.

Lemma showSaveTemplateView_trace (m : Modal) (elementModel : Model) :
  emitted (showSaveTemplateView elementModel) m =
    EvReset MenuArea :: map EvDestroy (Region.occupants (menuArea m)) ++
    EvShow ModalContent
      {| cid := next_cid m;
         kind := TemplateLibrarySaveTemplateView elementModel |}
      :: map EvDestroy (Region.occupants (modalContent m)).
Proof.
  open_modal m. unfold emitted. cbn. rewrite ?app_nil_r. reflexivity.
Qed.

Lemma showPreviewView_trace (m : Modal) (templateModel : Model) :
  emitted (showPreviewView templateModel) m =
    EvShow ModalContent
      {| cid := next_cid m;
         kind := TemplateLibraryPreviewView (Model_get templateModel "url") |}
      :: map EvDestroy (Region.occupants (modalContent m)) ++
    EvReset MenuArea :: map EvDestroy (Region.occupants (menuArea m)) ++
    EvShow Tools
      {| cid := S (next_cid m);
         kind := TemplateLibraryHeaderPreviewView templateModel |}
      :: map EvDestroy (Region.occupants (tools m)) ++
    EvShow LogoArea
      {| cid := S (S (next_cid m)); kind := TemplateLibraryHeaderBackView |}
      :: map EvDestroy (Region.occupants (logoArea m)).
Proof.
  open_modal m. unfold emitted. cbn. rewrite ?app_nil_r. reflexivity.
Qed.

(** Releases do not count as populating a region: the scan steps over
    them. *)
Lemma reset_precedes_shows_skip_destroys guarded (released : list View)
    (evs : list Event) :
  reset_precedes_shows guarded (map EvDestroy released ++ evs) =
  reset_precedes_shows guarded evs.
Proof.
  induction released as [|v released IH]; simpl; auto.
Qed.

(** C3, as amended: in [showImportView], [showConnectView] and
    [showSaveTemplateView] the reset of the menu region comes before any
    region is populated; [showPreviewView] first populates the content
    region with the preview view, and its reset of the menu region then
    comes before the tools and logo regions are populated. *)
Theorem menu_reset_order
    (m : Modal) (args : JsObject) (elementModel templateModel : Model) :
  menu_reset_first (emitted showImportView m) = true /\
  menu_reset_first (emitted (showConnectView args) m) = true /\
  menu_reset_first (emitted (showSaveTemplateView elementModel) m) = true /\
  head (emitted (showPreviewView templateModel) m) =
    Some (EvShow ModalContent
            {| cid := next_cid m;
               kind := TemplateLibraryPreviewView
                         (Model_get templateModel "url") |}) /\
  menu_reset_before_header (emitted (showPreviewView templateModel) m) = true.
Proof.
  rewrite showImportView_trace, showConnectView_trace,
    showSaveTemplateView_trace, showPreviewView_trace.
  repeat split.
  unfold menu_reset_before_header. simpl.
  now rewrite reset_precedes_shows_skip_destroys.
Qed.

(** ** Properties of the action-button resolution *)

(** A chain whose filters all return the value they are given returns it. *)
Lemma applyFilters_unchanged (hooks : Hooks) (name value : string)
    (templateData : TemplateData) :
  Forall (fun f : Filter => f value templateData = value)
         (default [] (hooks !! name)) ->
  applyFilters hooks name value templateData = value.
Proof.
  unfold applyFilters.
  induction 1 as [|f chain Hf _ IH]; simpl.
  - reflexivity.
  - rewrite Hf. exact IH.
Qed.

(** A name with no registered filter returns the value as it is. *)
Lemma applyFilters_unregistered (hooks : Hooks) (name value : string)
    (templateData : TemplateData) :
  hooks !! name = None ->
  applyFilters hooks name value templateData = value.
Proof.
  intros Hnone. apply applyFilters_unchanged. rewrite Hnone. constructor.
Qed.

(** C7: the identifier computed from the access level goes through the
    chain registered under the action-button hook, together with the
    template metadata, and the template rendered is the one the cache holds
    for the identifier the chain returns; when every filter of the chain
    returns the computed identifier as it got it, the template rendered is
    the one selected by the computed identifier. *)
Theorem action_button_filter_chain (hooks : Hooks) (templateData : TemplateData) :
  getTemplateActionButton hooks templateData =
    Renderer_render
      (TemplateCache_get
         (applyFilters hooks action_button_hook
            (computedViewId templateData) templateData))
      {| buttonText :=
           js_index buttonTextsFromAccessLevel (accessLevel templateData) |} /\
  (Forall (fun f : Filter =>
             f (computedViewId templateData) templateData =
             computedViewId templateData)
          (default [] (hooks !! action_button_hook)) ->
   getTemplateActionButton hooks templateData =
     Renderer_render
       (TemplateCache_get (computedViewId templateData))
       {| buttonText :=
            js_index buttonTextsFromAccessLevel (accessLevel templateData) |}).
Proof.
  split; [reflexivity|].
  intros Hchain. unfold getTemplateActionButton.
  now rewrite applyFilters_unchanged.
Qed.

(** The button text of an access level other than 0, 1 and 2. *)
Lemma buttonText_outside_levels (level : Z) :
  level ≠ 0 -> level ≠ 1 -> level ≠ 2 ->
  js_index buttonTextsFromAccessLevel level = JUndefined.
Proof.
  intros H0 H1 H2. unfold js_index, buttonTextsFromAccessLevel.
  rewrite !lookup_insert_ne by done.
  now rewrite lookup_singleton_ne.
Qed.

(** C10: for every access level other than 0 the computed identifier is
    the upsell one; for an access level outside 0, 1 and 2 the call still
    returns a rendering, of the template the filter chain returns for the
    upsell identifier (the upsell template itself when no filter changes
    the identifier), with an undefined button text. *)
Theorem action_button_other_levels (hooks : Hooks) (templateData : TemplateData)
    (Hnot0 : accessLevel templateData ≠ 0) :
  computedViewId templateData =
    "#tmpl-elementor-template-library-get-pro-button" /\
  (accessLevel templateData ≠ 1 -> accessLevel templateData ≠ 2 ->
   getTemplateActionButton hooks templateData =
     Renderer_render
       (TemplateCache_get
          (applyFilters hooks action_button_hook
             "#tmpl-elementor-template-library-get-pro-button" templateData))
       {| buttonText := JUndefined |} /\
   (Forall (fun f : Filter =>
              f "#tmpl-elementor-template-library-get-pro-button" templateData =
              "#tmpl-elementor-template-library-get-pro-button")
           (default [] (hooks !! action_button_hook)) ->
    getTemplateActionButton hooks templateData =
      Renderer_render
        (TemplateCache_get "#tmpl-elementor-template-library-get-pro-button")
        {| buttonText := JUndefined |})).
Proof.
  assert (Hid : computedViewId templateData =
                "#tmpl-elementor-template-library-get-pro-button").
  { unfold computedViewId. now rewrite bool_decide_eq_true_2. }
  split; [exact Hid|].
  intros H1 H2. unfold getTemplateActionButton.
  rewrite Hid, buttonText_outside_levels by assumption.
  split; [reflexivity|].
  intros Hchain. now rewrite applyFilters_unchanged.
Qed.

End LibraryLayout.

Arguments getLogoOptions __ : assert.
Arguments buttonTextsFromAccessLevel __ : assert.
Arguments getTemplateActionButton __ {Template Markup}
  TemplateCache_get Renderer_render hooks templateData : assert.

(** C2: access level 0 resolves to the insert-button identifier and a
    [null] button text, access level 1 to the upsell identifier and the
    text [__( 'Go Pro' )], access level 2 to the upsell identifier and the
    text [__( 'Go Expert' )]; the rendering is that of the template the
    filter chain returns for the identifier.  With no translation loaded the
    two texts are "Go Pro" and "Go Expert". *)
Theorem action_button_by_access_level :
  forall (tr : string -> string -> string) (Template Markup : Type)
         (get : string -> Template) (render : Template -> RenderData -> Markup)
         (hooks : Hooks) (fields : JsObject),
  let row level := {| accessLevel := level; otherFields := fields |} in
  (computedViewId (row 0) = "#tmpl-elementor-template-library-insert-button" /\
   getTemplateActionButton tr get render hooks (row 0) =
     render (get (applyFilters hooks action_button_hook
                    "#tmpl-elementor-template-library-insert-button" (row 0)))
            {| buttonText := JNull |}) /\
  (computedViewId (row 1) = "#tmpl-elementor-template-library-get-pro-button" /\
   getTemplateActionButton tr get render hooks (row 1) =
     render (get (applyFilters hooks action_button_hook
                    "#tmpl-elementor-template-library-get-pro-button" (row 1)))
            {| buttonText := JStr (tr "Go Pro" "elementor") |}) /\
  (computedViewId (row 2) = "#tmpl-elementor-template-library-get-pro-button" /\
   getTemplateActionButton tr get render hooks (row 2) =
     render (get (applyFilters hooks action_button_hook
                    "#tmpl-elementor-template-library-get-pro-button" (row 2)))
            {| buttonText := JStr (tr "Go Expert" "elementor") |}) /\
  js_index (buttonTextsFromAccessLevel untranslated) 1 = JStr "Go Pro" /\
  js_index (buttonTextsFromAccessLevel untranslated) 2 = JStr "Go Expert".
Proof.
  intros. repeat split.
Qed.

(** The three levels on a registry with no filter, no translation loaded. *)
Example action_button_levels_run :
  map (fun level =>
         getTemplateActionButton untranslated named_template render_pair ∅
           (template_row level)) [0; 1; 2] =
  [ ("#tmpl-elementor-template-library-insert-button", JNull);
    ("#tmpl-elementor-template-library-get-pro-button", JStr "Go Pro");
    ("#tmpl-elementor-template-library-get-pro-button", JStr "Go Expert") ].
Proof. reflexivity. Qed.

(** A registered filter that replaces the identifier decides the template
    rendered. *)
Example action_button_overridden :
  getTemplateActionButton untranslated named_template render_pair
    override_hooks (template_row 1) =
  ("#tmpl-custom-button", JStr "Go Pro").
Proof. vm_compute. reflexivity. Qed.

Lemma action_button_filter_chain_witness :
  Forall (fun f : Filter =>
            f (computedViewId (template_row 1)) (template_row 1) =
            computedViewId (template_row 1))
         (default [] (sample_hooks !! action_button_hook)) /\
  getTemplateActionButton untranslated named_template render_pair
    sample_hooks (template_row 1) =
  ("#tmpl-elementor-template-library-get-pro-button", JStr "Go Pro").
Proof.
  assert (Hchain :
    Forall (fun f : Filter =>
              f (computedViewId (template_row 1)) (template_row 1) =
              computedViewId (template_row 1))
           (default [] (sample_hooks !! action_button_hook))).
  { vm_compute. repeat constructor. }
  split; [exact Hchain|].
  exact (proj2 (action_button_filter_chain untranslated string
                  (string * JsVal) named_template render_pair
                  sample_hooks (template_row 1)) Hchain).
Defined.

Lemma action_button_other_levels_witness :
  accessLevel (template_row 7) ≠ 0 /\
  computedViewId (template_row 7) =
    "#tmpl-elementor-template-library-get-pro-button" /\
  getTemplateActionButton untranslated named_template render_pair
    sample_hooks (template_row 7) =
  ("#tmpl-elementor-template-library-get-pro-button", JUndefined).
Proof.
  assert (Hnot0 : accessLevel (template_row 7) ≠ 0) by (simpl; lia).
  assert (Hnot1 : accessLevel (template_row 7) ≠ 1) by (simpl; lia).
  assert (Hnot2 : accessLevel (template_row 7) ≠ 2) by (simpl; lia).
  destruct (action_button_other_levels untranslated string (string * JsVal)
              named_template render_pair sample_hooks (template_row 7) Hnot0)
    as [Hid Hrender].
  destruct (Hrender Hnot1 Hnot2) as [_ Hplain].
  split; [exact Hnot0 | split; [exact Hid |]].
  apply Hplain. vm_compute. repeat constructor.
Defined.

(** The trace of [showPreviewView] on an empty modal: the content region
    is populated before the menu region is reset. *)
Example showPreviewView_trace_run :
  emitted (showPreviewView sample_template) empty_modal =
  [ EvShow ModalContent
      {| cid := 0;
         kind := TemplateLibraryPreviewView
                   (JStr "https://library.test/preview/7") |};
    EvReset MenuArea;
    EvShow Tools
      {| cid := 1; kind := TemplateLibraryHeaderPreviewView sample_template |};
    EvShow LogoArea {| cid := 2; kind := TemplateLibraryHeaderBackView |} ].
Proof. reflexivity. Qed.

(** C3 fails for [showPreviewView]: on the empty modal its reset of the
    menu region does not come before every [show]. *)
Lemma showPreviewView_populates_before_reset :
  menu_reset_first (emitted (showPreviewView sample_template) empty_modal) =
  false.
Proof. reflexivity. Qed.

(** ** Properties of a region *)

(** The region after a non-empty sequence of [show] calls, and what the
    calls released. *)
Lemma Region_show_all_snoc (r : Region.t) (prior : list View) (view : View) :
  Region.show_all (prior ++ [view]) r =
  ({| Region.currentView := Some view |}, Region.occupants r ++ prior).
Proof.
  revert r. induction prior as [|v prior IH]; intros r.
  - simpl. now rewrite !app_nil_r.
  - simpl. rewrite IH. reflexivity.
Qed.

(** C8: after any sequence of [show] calls the region holds the view of
    the last call, and the views released are exactly the occupant the
    region started with, if any, followed by the views of the earlier calls,
    each listed once, in the order they were shown; [show] is a total
    function and has no failure result. *)
Theorem Region_show_sequence (r : Region.t) (prior : list View) (view : View) :
  Region.currentView (fst (Region.show_all (prior ++ [view]) r)) = Some view /\
  snd (Region.show_all (prior ++ [view]) r) = Region.occupants r ++ prior.
Proof.
  now rewrite Region_show_all_snoc.
Qed.

(** On a region that starts empty, with views that are all distinct, every
    earlier view is released exactly once and the last one is not
    released. *)
Lemma Region_show_sequence_fresh (prior : list View) (view : View) :
  NoDup (prior ++ [view]) ->
  let released := snd (Region.show_all (prior ++ [view]) Region.empty) in
  released = prior /\ NoDup released /\ view ∉ released.
Proof.
  intros Hnodup. rewrite Region_show_all_snoc. simpl.
  apply NoDup_app in Hnodup as (Hprior & Hdisj & _).
  repeat split; [exact Hprior|].
  intros Hin. apply (Hdisj view Hin). constructor.
Qed.

(** C9: [reset] on an empty region changes nothing and releases nothing;
    on an occupied region it releases the occupant and leaves the region
    empty; a second [reset] right after a first one is such a no-op. *)
Theorem Region_reset_idempotent :
  Region.reset Region.empty = (Region.empty, []) /\
  (forall v : View,
     Region.reset {| Region.currentView := Some v |} = (Region.empty, [v])) /\
  (forall r : Region.t,
     Region.reset (fst (Region.reset r)) = (fst (Region.reset r), [])).
Proof.
  repeat split.
Qed.

(** A second call replaces the instances of the first one: the screen is
    the same, the modal is not. *)
Example setHeaderDefaultParts_twice_new_instances :
  Region.occupants
    (tools (exec (setHeaderDefaultParts untranslated)
              (exec (setHeaderDefaultParts untranslated) empty_modal))) =
    [ {| cid := 3%nat; kind := TemplateLibraryHeaderActionsView |} ] /\
  Region.occupants
    (tools (exec (setHeaderDefaultParts untranslated) empty_modal)) =
    [ {| cid := 0%nat; kind := TemplateLibraryHeaderActionsView |} ].
Proof. split; reflexivity. Qed.

(** The save-template scenario run from the default screen of a freshly
    opened library: the content view created by [showSaveTemplateView]
    (instance 4) is still in place after [setHeaderDefaultParts]. *)
Example save_template_scenario_run :
  let opened :=
    exec (showTemplatesView [sample_template])
      (exec (setHeaderDefaultParts untranslated) empty_modal) in
  let saved := exec (showSaveTemplateView sample_template) opened in
  let back := exec (setHeaderDefaultParts untranslated) saved in
  occupant_kind (menuArea opened) = Some TemplateLibraryHeaderMenuView /\
  Region.occupants (menuArea saved) = [] /\
  Region.occupants (modalContent saved) =
    [ {| cid := 4%nat;
         kind := TemplateLibrarySaveTemplateView sample_template |} ] /\
  Region.occupants (modalContent back) =
    [ {| cid := 4%nat;
         kind := TemplateLibrarySaveTemplateView sample_template |} ] /\
  occupant_kind (menuArea back) = Some TemplateLibraryHeaderMenuView.
Proof. repeat split. Qed.

(** * Sequences of transitions *)

Section Sequences.

Variable __ : string -> string -> string.

(** The modal and the trace of a sequence of calls, call by call. *)
Lemma exec_call_all_cons (cmd : Command) (rest : list Command) (m : Modal) :
  exec (call_all __ (cmd :: rest)) m =
  exec (call_all __ rest) (exec (call __ cmd) m).
Proof.
  unfold exec. simpl. unfold mbind, M_bind.
  destruct (call __ cmd m) as [[[] m1] evs1]. simpl.
  destruct (call_all __ rest m1) as [[[] m2] evs2]. reflexivity.
Qed.

Lemma emitted_call_all_cons (cmd : Command) (rest : list Command) (m : Modal) :
  emitted (call_all __ (cmd :: rest)) m =
  emitted (call __ cmd) m ++ emitted (call_all __ rest) (exec (call __ cmd) m).
Proof.
  unfold emitted, exec. simpl. unfold mbind, M_bind.
  destruct (call __ cmd m) as [[[] m1] evs1]. simpl.
  destruct (call_all __ rest m1) as [[[] m2] evs2]. reflexivity.
Qed.

Lemma shown_app (evs1 evs2 : list Event) :
  shown (evs1 ++ evs2) = shown evs1 ++ shown evs2.
Proof.
  induction evs1 as [|[] evs1 IH]; simpl; congruence.
Qed.

Lemma destroyed_app (evs1 evs2 : list Event) :
  destroyed (evs1 ++ evs2) = destroyed evs1 ++ destroyed evs2.
Proof.
  induction evs1 as [|[] evs1 IH]; simpl; congruence.
Qed.

Ltac open_all m :=
  destruct m as [[[logo|]] [[tool|]] [[menu|]] [[content|]] n].

(** Runs a call on a modal whose regions are known to be occupied or
    empty, leaving the model attributes and logo options folded. *)
Ltac run_call := cbv -[Model_get getLogoOptions].

(** One call keeps the account of views: held before plus shown equals
    released plus held after. *)
Lemma call_conserves (cmd : Command) (m : Modal) :
  all_occupants m ++ shown (emitted (call __ cmd) m) ≡ₚ
  destroyed (emitted (call __ cmd) m) ++ all_occupants (exec (call __ cmd) m).
Proof.
  destruct cmd; open_all m; run_call; solve_Permutation.
Qed.

Lemma call_all_conserves (cmds : list Command) (m : Modal) :
  all_occupants m ++ shown (emitted (call_all __ cmds) m) ≡ₚ
  destroyed (emitted (call_all __ cmds) m) ++
  all_occupants (exec (call_all __ cmds) m).
Proof.
  revert m. induction cmds as [|cmd rest IH]; intros m.
  - cbn. now rewrite app_nil_r.
  - rewrite exec_call_all_cons, emitted_call_all_cons, shown_app, destroyed_app.
    rewrite app_assoc, call_conserves, <- !app_assoc, IH.
    reflexivity.
Qed.

(** X1: over any sequence of calls from any modal, the views held before
    together with the views shown during the calls are, counted with
    multiplicity, the views released during the calls together with the
    views held afterwards: no view is dropped without being released. *)
Theorem calls_conserve_views (cmds : list Command) (m : Modal) :
  all_occupants m ++ shown (emitted (call_all __ cmds) m) ≡ₚ
  destroyed (emitted (call_all __ cmds) m) ++
  all_occupants (exec (call_all __ cmds) m).
Proof.
  apply call_all_conserves.
Qed.

(** One call shows new instances only, numbered from the counter on. *)
Lemma call_shows_fresh (cmd : Command) (m : Modal) :
  cid <$> shown (emitted (call __ cmd) m) =
    seq (next_cid m) (length (shown (emitted (call __ cmd) m))) /\
  next_cid (exec (call __ cmd) m) =
    (length (shown (emitted (call __ cmd) m)) + next_cid m)%nat.
Proof.
  destruct cmd; open_all m; run_call; split; reflexivity.
Qed.

Lemma calls_show_fresh_aux (cmds : list Command) (m : Modal) :
  cid <$> shown (emitted (call_all __ cmds) m) =
    seq (next_cid m) (length (shown (emitted (call_all __ cmds) m))) /\
  next_cid (exec (call_all __ cmds) m) =
    (next_cid m + length (shown (emitted (call_all __ cmds) m)))%nat.
Proof.
  revert m. induction cmds as [|cmd rest IH]; intros m.
  - cbn. split; [reflexivity | lia].
  - rewrite exec_call_all_cons, emitted_call_all_cons, shown_app.
    destruct (call_shows_fresh cmd m) as [Hseq Hnext].
    destruct (IH (exec (call __ cmd) m)) as [IHseq IHnext].
    rewrite fmap_app, length_app, seq_app, Hseq, IHseq, IHnext, Hnext.
    split; [|lia].
    do 2 f_equal. lia.
Qed.

(** X2: every view a sequence of calls puts into a region is an instance
    created by that sequence: the views shown carry the consecutive [cid]s
    from the counter's value before the calls, in the order they are shown,
    and the counter ends advanced by their number. *)
Theorem calls_show_fresh_instances (cmds : list Command) (m : Modal) :
  cid <$> shown (emitted (call_all __ cmds) m) =
    seq (next_cid m) (length (shown (emitted (call_all __ cmds) m))) /\
  next_cid (exec (call_all __ cmds) m) =
    (next_cid m + length (shown (emitted (call_all __ cmds) m)))%nat.
Proof.
  apply calls_show_fresh_aux.
Qed.

(** From a well-formed modal the instances released and the instances
    still held are all different, and the modal stays well formed. *)
Lemma calls_release_once_aux (cmds : list Command) (m : Modal) :
  well_formed m ->
  well_formed (exec (call_all __ cmds) m) /\
  NoDup (cid <$> (destroyed (emitted (call_all __ cmds) m) ++
                  all_occupants (exec (call_all __ cmds) m))).
Proof.
  intros [Hnodup Hbound].
  pose proof (call_all_conserves cmds m) as Hperm.
  destruct (calls_show_fresh_aux cmds m) as [Hseq Hnext].
  apply (fmap_Permutation cid) in Hperm.
  rewrite fmap_app, Hseq in Hperm.
  assert (Hleft : NoDup ((cid <$> all_occupants m) ++
                         seq (next_cid m)
                           (length (shown (emitted (call_all __ cmds) m))))).
  { apply NoDup_app. split; [exact Hnodup|]. split; [|apply NoDup_seq].
    intros c Hc Hin. apply elem_of_seq in Hin.
    rewrite Forall_forall in Hbound. specialize (Hbound c Hc). lia. }
  rewrite Hperm in Hleft.
  split; [|exact Hleft].
  rewrite fmap_app in Hleft. apply NoDup_app in Hleft as (_ & _ & Hafter).
  split; [exact Hafter|].
  apply Forall_forall. intros c Hc.
  assert (Hin : c ∈ cid <$> (destroyed (emitted (call_all __ cmds) m) ++
                            all_occupants (exec (call_all __ cmds) m))).
  { rewrite fmap_app. apply elem_of_app. now right. }
  rewrite <- Hperm in Hin. apply elem_of_app in Hin as [Hin|Hin].
  - rewrite Forall_forall in Hbound. specialize (Hbound c Hin). lia.
  - apply elem_of_seq in Hin. lia.
Qed.

(** X3: the calls keep the modal well formed: when no instance sits in two
    regions and every instance held was drawn from the counter, the same
    holds after any sequence of calls. *)
Theorem calls_keep_well_formed (cmds : list Command) (m : Modal) :
  well_formed m -> well_formed (exec (call_all __ cmds) m).
Proof.
  intros Hwf. now apply calls_release_once_aux.
Qed.

(** X4: from a well-formed modal, no instance is released twice by a
    sequence of calls, and no released instance is still held by a region
    afterwards. *)
Theorem calls_release_once (cmds : list Command) (m : Modal) :
  well_formed m ->
  NoDup (cid <$> (destroyed (emitted (call_all __ cmds) m) ++
                  all_occupants (exec (call_all __ cmds) m))).
Proof.
  intros Hwf. now apply calls_release_once_aux.
Qed.

(** A call leaves alone the regions it does not write to. *)
Lemma call_frame (cmd : Command) (name : RegionName) (m : Modal) :
  touches cmd name = false ->
  region_of name (exec (call __ cmd) m) = region_of name m.
Proof.
  destruct cmd, name; simpl; try discriminate; intros _;
    destruct m as [[logo] [tool] [menu] [content] n]; reflexivity.
Qed.

(** X5: a region keeps its occupant, the very same instance, through any
    sequence of calls none of which writes to it; so the tools region
    changes only in [setHeaderDefaultParts] and [showPreviewView], and the
    logo region never in [showTemplatesView], [showConnectView] and
    [showSaveTemplateView]. *)
Theorem calls_frame (cmds : list Command) (name : RegionName) (m : Modal) :
  forallb (fun cmd => negb (touches cmd name)) cmds = true ->
  region_of name (exec (call_all __ cmds) m) = region_of name m.
Proof.
  revert m. induction cmds as [|cmd rest IH]; intros m Hnone.
  - reflexivity.
  - simpl in Hnone. apply andb_true_iff in Hnone as [Hcmd Hrest].
    rewrite exec_call_all_cons, IH by exact Hrest.
    apply call_frame. now apply negb_true_iff.
Qed.

(** X6: a call replaces the occupant of every region it writes to:
    afterwards the region is empty or holds an instance created by this
    call. *)
Theorem call_overwrites (cmd : Command) (name : RegionName) (m : Modal) :
  touches cmd name = true ->
  match Region.currentView (region_of name (exec (call __ cmd) m)) with
  | None => True
  | Some view =>
      (next_cid m <= cid view < next_cid (exec (call __ cmd) m))%nat
  end.
Proof.
  destruct cmd, name; simpl; try discriminate; intros _;
    destruct m as [[logo] [tool] [menu] [content] n]; simpl; lia.
Qed.

Lemma call_menu_not_populated (cmd : Command) (m : Modal) :
  is_SetHeaderDefaultParts cmd = false ->
  menuArea (exec (call __ cmd) m) = menuArea m \/
  menuArea (exec (call __ cmd) m) = Region.empty.
Proof.
  destruct cmd; simpl; try discriminate; intros _;
    destruct m as [[logo] [tool] [menu] [content] n]; auto.
Qed.

(** X7: only [setHeaderDefaultParts] puts a view into the menu region:
    after any sequence of the other calls the menu region is as it was
    before or empty. *)
Theorem calls_menu_not_populated (cmds : list Command) (m : Modal) :
  forallb (fun cmd => negb (is_SetHeaderDefaultParts cmd)) cmds = true ->
  menuArea (exec (call_all __ cmds) m) = menuArea m \/
  menuArea (exec (call_all __ cmds) m) = Region.empty.
Proof.
  revert m. induction cmds as [|cmd rest IH]; intros m Hnone.
  - now left.
  - simpl in Hnone. apply andb_true_iff in Hnone as [Hcmd Hrest].
    apply negb_true_iff in Hcmd.
    rewrite exec_call_all_cons.
    destruct (IH (exec (call __ cmd) m) Hrest) as [Hsame|Hempty];
      [|now right].
    rewrite Hsame. now apply call_menu_not_populated.
Qed.

(** X8: the header of the preview screen outlives the screen: after
    [showPreviewView( templateModel )], the calls [showConnectView],
    [showSaveTemplateView] and [showTemplatesView] leave the tools region
    with the preview header bound to [templateModel] and the logo region
    with the back view, the instances [showPreviewView] created. *)
Theorem preview_header_outlives_preview
    (m : Modal) (templateModel elementModel : Model) (args : JsObject)
    (templatesCollection : list Model) :
  let previewed := exec (showPreviewView templateModel) m in
  let header :=
    {| cid := S (next_cid m);
       kind := TemplateLibraryHeaderPreviewView templateModel |} in
  let back :=
    {| cid := S (S (next_cid m)); kind := TemplateLibraryHeaderBackView |} in
  (Region.occupants (tools (exec (showConnectView args) previewed)) = [header] /\
   Region.occupants (logoArea (exec (showConnectView args) previewed)) = [back]) /\
  (Region.occupants
     (tools (exec (showSaveTemplateView elementModel) previewed)) = [header] /\
   Region.occupants
     (logoArea (exec (showSaveTemplateView elementModel) previewed)) = [back]) /\
  (Region.occupants
     (tools (exec (showTemplatesView templatesCollection) previewed)) = [header] /\
   Region.occupants
     (logoArea (exec (showTemplatesView templatesCollection) previewed)) = [back]).
Proof.
  destruct m as [[logo] [tool] [menu] [content] n]. repeat split.
Qed.

(** X9: [setHeaderDefaultParts] and [showTemplatesView], in either order
    and from any modal, give the default screen: logo view, header actions,
    header menu and the collection view of the given templates. *)
Theorem default_screen_restored (m : Modal) (templatesCollection : list Model) :
  let a := exec (showTemplatesView templatesCollection)
             (exec (setHeaderDefaultParts __) m) in
  let b := exec (setHeaderDefaultParts __)
             (exec (showTemplatesView templatesCollection) m) in
  occupant_kind (logoArea a) = Some (LogoView (getLogoOptions __)) /\
  occupant_kind (tools a) = Some TemplateLibraryHeaderActionsView /\
  occupant_kind (menuArea a) = Some TemplateLibraryHeaderMenuView /\
  occupant_kind (modalContent a) =
    Some (TemplateLibraryCollectionView templatesCollection) /\
  same_screen a b.
Proof.
  destruct m as [[logo] [tool] [menu] [content] n].
  unfold same_screen. repeat split.
Qed.

Lemma call_same_screen (cmd : Command) (m1 m2 : Modal) :
  same_screen m1 m2 ->
  same_screen (exec (call __ cmd) m1) (exec (call __ cmd) m2).
Proof.
  destruct m1 as [[logo1] [tool1] [menu1] [content1] n1].
  destruct m2 as [[logo2] [tool2] [menu2] [content2] n2].
  unfold same_screen, occupant_kind. simpl.
  intros (Hlogo & Htools & Hmenu & Hcontent).
  destruct cmd; simpl; repeat split; assumption.
Qed.

(** X10: the screen after a sequence of calls depends on the screen before
    and on the calls only: two modals showing the same screen (whatever
    their instances and counters) show the same screen after the same
    calls. *)
Theorem calls_same_screen (cmds : list Command) (m1 m2 : Modal) :
  same_screen m1 m2 ->
  same_screen (exec (call_all __ cmds) m1) (exec (call_all __ cmds) m2).
Proof.
  revert m1 m2. induction cmds as [|cmd rest IH]; intros m1 m2 Hsame.
  - exact Hsame.
  - rewrite !exec_call_all_cons. apply IH. now apply call_same_screen.
Qed.

Lemma call_events_allowed (cmd : Command) (m : Modal) :
  forallb event_allowed (emitted (call __ cmd) m) = true.
Proof.
  destruct cmd; open_all m; reflexivity.
Qed.

(** X11: whatever the calls and the modal, the only region ever reset is
    the menu region, and a region is only ever shown a view of its own
    classes: logo or back view in the logo region, header actions or
    preview header in the tools region, the header menu in the menu region,
    and a collection, import, connect, save-template or preview view in the
    content region. *)
Theorem calls_events_allowed (cmds : list Command) (m : Modal) :
  forallb event_allowed (emitted (call_all __ cmds) m) = true.
Proof.
  revert m. induction cmds as [|cmd rest IH]; intros m.
  - reflexivity.
  - rewrite emitted_call_all_cons, forallb_app, call_events_allowed, IH.
    reflexivity.
Qed.

Lemma call_region_typed (cmd : Command) (m : Modal) :
  region_typed m = true -> region_typed (exec (call __ cmd) m) = true.
Proof.
  destruct m as [[logo] [tool] [menu] [content] n].
  unfold region_typed, holds_allowed. simpl.
  rewrite !andb_true_iff. intros [[[Hlogo Htools] Hmenu] Hcontent].
  destruct cmd; simpl; rewrite ?andb_true_iff; repeat split; assumption.
Qed.

(** X12: when every region holds a view of its own classes (or none), it
    still does after any sequence of calls. *)
Theorem calls_keep_region_typed (cmds : list Command) (m : Modal) :
  region_typed m = true -> region_typed (exec (call_all __ cmds) m) = true.
Proof.
  revert m. induction cmds as [|cmd rest IH]; intros m Htyped.
  - exact Htyped.
  - rewrite exec_call_all_cons. apply IH. now apply call_region_typed.
Qed.

End Sequences.

Lemma well_formed_empty_modal : well_formed empty_modal.
Proof.
  split; constructor.
Qed.

Lemma calls_keep_well_formed_witness :
  well_formed empty_modal /\
  well_formed (exec (call_all untranslated sample_session) empty_modal).
Proof.
  split; [exact well_formed_empty_modal|].
  exact (calls_keep_well_formed untranslated sample_session empty_modal
           well_formed_empty_modal).
Defined.

Lemma calls_release_once_witness :
  well_formed empty_modal /\
  NoDup (cid <$> (destroyed
                    (emitted (call_all untranslated sample_session) empty_modal) ++
                  all_occupants
                    (exec (call_all untranslated sample_session) empty_modal))).
Proof.
  split; [exact well_formed_empty_modal|].
  exact (calls_release_once untranslated sample_session empty_modal
           well_formed_empty_modal).
Defined.

(** The session on an empty modal: twelve views are created, nine of them
    are released and three are held at the end. *)
Example sample_session_run :
  cid <$> destroyed (emitted (call_all untranslated sample_session) empty_modal) =
    [3; 1; 0; 2; 4; 5; 6; 9; 7]%nat /\
  cid <$> all_occupants (exec (call_all untranslated sample_session) empty_modal) =
    [10; 8; 11]%nat /\
  next_cid (exec (call_all untranslated sample_session) empty_modal) = 12%nat.
Proof. repeat split. Qed.

Lemma calls_frame_witness :
  forallb (fun cmd => negb (touches cmd Tools)) sample_content_calls = true /\
  region_of Tools
    (exec (call_all untranslated sample_content_calls)
       (exec (showPreviewView sample_template) empty_modal)) =
  region_of Tools (exec (showPreviewView sample_template) empty_modal).
Proof.
  split; [reflexivity|].
  apply (calls_frame untranslated sample_content_calls Tools). reflexivity.
Defined.

Lemma call_overwrites_witness :
  touches (ShowPreviewView sample_template) Tools = true /\
  match
    Region.currentView
      (region_of Tools
         (exec (call untranslated (ShowPreviewView sample_template)) empty_modal))
  with
  | None => True
  | Some view =>
      (next_cid empty_modal <= cid view <
       next_cid (exec (call untranslated (ShowPreviewView sample_template))
                   empty_modal))%nat
  end.
Proof.
  split; [reflexivity|].
  apply (call_overwrites untranslated (ShowPreviewView sample_template) Tools
           empty_modal).
  reflexivity.
Defined.

Lemma calls_menu_not_populated_witness :
  forallb (fun cmd => negb (is_SetHeaderDefaultParts cmd))
    sample_content_calls = true /\
  (menuArea (exec (call_all untranslated sample_content_calls)
               (exec (setHeaderDefaultParts untranslated) empty_modal)) =
   menuArea (exec (setHeaderDefaultParts untranslated) empty_modal) \/
   menuArea (exec (call_all untranslated sample_content_calls)
               (exec (setHeaderDefaultParts untranslated) empty_modal)) =
   Region.empty).
Proof.
  split; [reflexivity|].
  apply (calls_menu_not_populated untranslated sample_content_calls).
  reflexivity.
Defined.

Lemma calls_same_screen_witness :
  same_screen
    (exec (setHeaderDefaultParts untranslated) empty_modal)
    (exec (setHeaderDefaultParts untranslated)
       (exec (setHeaderDefaultParts untranslated) empty_modal)) /\
  same_screen
    (exec (call_all untranslated sample_session)
       (exec (setHeaderDefaultParts untranslated) empty_modal))
    (exec (call_all untranslated sample_session)
       (exec (setHeaderDefaultParts untranslated)
          (exec (setHeaderDefaultParts untranslated) empty_modal))).
Proof.
  assert (Hsame :
    same_screen
      (exec (setHeaderDefaultParts untranslated) empty_modal)
      (exec (setHeaderDefaultParts untranslated)
         (exec (setHeaderDefaultParts untranslated) empty_modal))).
  { unfold same_screen. repeat split. }
  split; [exact Hsame|].
  exact (calls_same_screen untranslated sample_session _ _ Hsame).
Defined.

Lemma calls_keep_region_typed_witness :
  region_typed empty_modal = true /\
  region_typed (exec (call_all untranslated sample_session) empty_modal) = true.
Proof.
  split; [reflexivity|].
  apply (calls_keep_region_typed untranslated sample_session empty_modal).
  reflexivity.
Defined.

(** * The stability wait *)

(** The counter [retry] is written back to its old value in every round,
    so the loop runs with [retry = 0] throughout. *)
Lemma isUiStable_loop_settles (n fuel : nat) (differs : nat -> bool)
    (retries : Z) (round : nat) :
  retries ≠ 0 ->
  (forall k, (k < n)%nat -> differs (round + k)%nat = true) ->
  differs (round + n)%nat = false ->
  (n < fuel)%nat ->
  EditorPage.isUiStable_loop fuel differs retries 0 round =
    Some (S (round + n)).
Proof.
  revert fuel round.
  induction n as [|n IH]; intros fuel round Hretries Hdiffer Hstable Hfuel.
  - destruct fuel as [|fuel]; [lia|]. simpl.
    rewrite bool_decide_eq_false_2 by congruence.
    rewrite Nat.add_0_r in Hstable. rewrite Hstable.
    now rewrite Nat.add_0_r.
  - destruct fuel as [|fuel]; [lia|]. simpl.
    rewrite bool_decide_eq_false_2 by congruence.
    assert (Hfirst : differs round = true).
    { rewrite <- (Nat.add_0_r round). apply Hdiffer. lia. }
    rewrite Hfirst, (IH fuel (S round)); try assumption; try lia.
    + f_equal. lia.
    + intros k Hk. replace (S round + k)%nat with (round + S k)%nat by lia.
      apply Hdiffer. lia.
    + now replace (S round + n)%nat with (round + S n)%nat by lia.
Qed.

Lemma isUiStable_loop_runs_on (fuel : nat) (differs : nat -> bool)
    (retries : Z) (round : nat) :
  retries ≠ 0 ->
  (forall k, differs k = true) ->
  EditorPage.isUiStable_loop fuel differs retries 0 round = None.
Proof.
  intros Hretries Hdiffer. revert round.
  induction fuel as [|fuel IH]; intros round; simpl.
  - reflexivity.
  - rewrite bool_decide_eq_false_2 by congruence.
    rewrite Hdiffer. apply IH.
Qed.

(** With [retries] 0 the call returns at once, no screenshot taken. *)
Lemma isUiStable_no_retries (fuel : nat) (differs : nat -> bool) :
  EditorPage.isUiStable (S fuel) differs 0 = Some 0%nat.
Proof. reflexivity. Qed.

(** X13: with a non-zero [retries], [isUiStable] returns after the first
    round whose two screenshots agree, however many rounds that takes: the
    number of rounds is not bounded by [retries]. *)
Theorem isUiStable_returns_at_first_stable_round
    (n fuel : nat) (differs : nat -> bool) (retries : Z) :
  retries ≠ 0 ->
  (forall k, (k < n)%nat -> differs k = true) ->
  differs n = false ->
  (n < fuel)%nat ->
  EditorPage.isUiStable fuel differs retries = Some (S n).
Proof.
  intros Hretries Hdiffer Hstable Hfuel.
  exact (isUiStable_loop_settles n fuel differs retries 0
           Hretries Hdiffer Hstable Hfuel).
Qed.

Lemma isUiStable_returns_at_first_stable_round_witness :
  3 ≠ 0 /\
  (forall k, (k < 5)%nat -> settles_after_five k = true) /\
  settles_after_five 5 = false /\
  (5 < 10)%nat /\
  EditorPage.isUiStable 10 settles_after_five 3 = Some 6%nat.
Proof.
  assert (Hdiffer : forall k, (k < 5)%nat -> settles_after_five k = true).
  { intros k Hk. now apply Nat.ltb_lt. }
  assert (Hretries : (3 : Z) ≠ 0) by lia.
  assert (Hfuel : (5 < 10)%nat) by lia.
  split; [exact Hretries|]. split; [exact Hdiffer|].
  split; [reflexivity|]. split; [exact Hfuel|].
  exact (isUiStable_returns_at_first_stable_round 5 10 settles_after_five 3
           Hretries Hdiffer eq_refl Hfuel).
Defined.

(** X14: with a non-zero [retries], [isUiStable] does not give up: while
    the screenshots of every round differ the loop goes on, past any number
    of rounds. *)
Theorem isUiStable_never_gives_up
    (fuel : nat) (differs : nat -> bool) (retries : Z) :
  retries ≠ 0 ->
  (forall k, differs k = true) ->
  EditorPage.isUiStable fuel differs retries = None.
Proof.
  intros Hretries Hdiffer.
  exact (isUiStable_loop_runs_on fuel differs retries 0 Hretries Hdiffer).
Qed.

Lemma isUiStable_never_gives_up_witness :
  3 ≠ 0 /\
  (forall k, never_settles k = true) /\
  EditorPage.isUiStable 1000 never_settles 3 = None.
Proof.
  assert (Hretries : (3 : Z) ≠ 0) by lia.
  assert (Hdiffer : forall k, never_settles k = true) by reflexivity.
  split; [exact Hretries|]. split; [exact Hdiffer|].
  exact (isUiStable_never_gives_up 1000 never_settles 3 Hretries Hdiffer).
Defined.
